(** * Cargo integrity state engine of [transport-dashboard.jsx]

    Shallow embedding of the state logic of the [Dashboard] component:
    the crop-profile table, the status-key functions, the financial loss
    formula, and the state updates performed by [handleTempChange],
    [handleGForceChange], [handleInject] and the auto-play interval tick.

    Numbers of the JavaScript source are modelled as rationals [Q]
    (temperatures, g-forces, tilt, money) and the integrity score and the
    deductions as [Z]; IEEE-754 rounding is not modelled.  React's
    [useState] slots are collected into one record [state]; each handler
    becomes a pure function from the state before to the state after.
    Random draws of the auto-play tick and the clock strings of [nowTime]
    are passed in as arguments of the operation. *)

From Stdlib Require Import QArith Qround Qabs ZArith String List Lia Sorted.
Import ListNotations.

Open Scope Q_scope.

(** ** Crop profiles ([CROP_PROFILES]) *)

Record CropProfile := {
  cargoValue : Q;
  tempDanger : Q;
  tempWarning : Q;
  gforceCritical : Q;
  gforceWarning : Q;
  tiltCritical : Q
}.

(** The keys of [CROP_PROFILES]; the crop selector only offers these keys
    ([Object.entries(CROP_PROFILES).map(...)]). *)
Inductive Crop := Tomatoes | Bananas | Potatoes.

Definition CROP_PROFILES (c : Crop) : CropProfile :=
  match c with
  | Tomatoes => {| cargoValue := 10000; tempDanger := 30; tempWarning := 27;
                   gforceCritical := 2.0; gforceWarning := 1.5; tiltCritical := 25 |}
  | Bananas  => {| cargoValue := 8000; tempDanger := 25; tempWarning := 22;
                   gforceCritical := 1.5; gforceWarning := 1.0; tiltCritical := 20 |}
  | Potatoes => {| cargoValue := 6000; tempDanger := 35; tempWarning := 30;
                   gforceCritical := 3.0; gforceWarning := 2.0; tiltCritical := 30 |}
  end.

(** ** Status keys *)

Inductive StatusKey := Critical | Warning | Optimal | Stable.

(** JavaScript [a > b] on numbers. *)
Definition gtb (a b : Q) : bool := negb (Qle_bool a b).

Definition getTempStatusKey (temp : Q) (profile : CropProfile) : StatusKey :=
  if gtb temp (tempDanger profile) then Critical
  else if gtb temp (tempWarning profile) then Warning
  else Optimal.

Definition getGForceStatusKey (g : Q) (profile : CropProfile) : StatusKey :=
  if gtb g (gforceCritical profile) then Critical
  else if gtb g (gforceWarning profile) then Warning
  else Stable.

Definition getTiltStatusKey (tilt : Q) (profile : CropProfile) : StatusKey :=
  if gtb tilt (tiltCritical profile) then Critical
  else if gtb tilt (tiltCritical profile * 0.6) then Warning
  else Stable.

(** ** Financial formula ([calcMarketLoss]) *)

Definition calcMarketLoss (cis cargoValue : Q) : Q :=
  - ((100 - cis) / 100 * cargoValue).

(** ** Session state *)

Definition BASE_CIS : Z := 88.

Inductive IncidentType := TInfo | TWarning | TCritical.

(** An entry of the incident log.  Event labels are kept without the
    emoji prefixes of the source. *)
Record Incident := {
  id : Z;
  time : string;
  event : string;
  itype : IncidentType;
  gforce : Q;
  temp : Q;
  deduction : Z;
  sim : bool
}.

Record TripData := {
  cisScore : Z;
  currentTemp : Q;
  peakGForce : Q;
  currentTilt : Q
}.

Record Sample := { stime : string; stemp : Q }.

(** The [useState]/[useRef] slots of [Dashboard] that the engine uses.  The
    incident log holds [option Incident]: [None] is the JavaScript
    [undefined] that [handleInject] appends when [type] matches none of its
    branches. *)
Record state := {
  crop : Crop;
  isAutoPlay : bool;
  tripData : TripData;
  incidents : list (option Incident);
  tempHistory : list Sample;
  idRef : Z
}.

Definition mkInc (i : Z) (t e : string) (ty : IncidentType) (g tp : Q) (d : Z) (s : bool) :
  Incident :=
  {| id := i; time := t; event := e; itype := ty; gforce := g; temp := tp;
     deduction := d; sim := s |}.

Definition INITIAL_INCIDENTS : list Incident := [
  mkInc 1 "09:02" "Trip Started"        TInfo     0.2 24.1 0 false;
  mkInc 2 "09:47" "Hard Braking"        TWarning  1.8 24.8 2 false;
  mkInc 3 "10:15" "Severe Pothole"      TCritical 3.1 25.3 5 false;
  mkInc 4 "10:52" "Sharp Corner"        TWarning  1.4 26.1 1 false;
  mkInc 5 "11:45" "AC Fluctuation"      TCritical 0.3 32.0 7 false;
  mkInc 6 "12:20" "Road Vibration"      TWarning  1.1 29.4 1 false;
  mkInc 7 "12:58" "Sudden Stop"         TWarning  2.1 28.5 3 false;
  mkInc 8 "13:10" "Destination Arrived" TInfo     0.1 28.5 0 false ].

Definition smp (t : string) (x : Q) : Sample := {| stime := t; stemp := x |}.

Definition INITIAL_TEMP_HISTORY : list Sample := [
  smp "09:00" 24.0; smp "09:30" 24.3; smp "10:00" 24.9; smp "10:15" 25.3;
  smp "10:30" 25.8; smp "11:00" 26.5; smp "11:30" 27.2; smp "11:45" 32.0;
  smp "12:00" 31.4; smp "12:15" 30.1; smp "12:30" 29.6; smp "12:45" 29.1;
  smp "13:00" 28.5; smp "13:10" 28.5].

(** [computeCIS]: [Math.max(0, BASE_CIS - incidents.reduce((s, i) => s + i.deduction, 0))]. *)
Definition computeCIS (incs : list Incident) : Z :=
  Z.max 0 (BASE_CIS - fold_left (fun s i => (s + deduction i)%Z) incs 0%Z).

Definition initialState : state := {|
  crop := Tomatoes;
  isAutoPlay := false;
  tripData := {| cisScore := computeCIS INITIAL_INCIDENTS; currentTemp := 28.5;
                 peakGForce := 3.1; currentTilt := 12 |};
  incidents := map Some INITIAL_INCIDENTS;
  tempHistory := INITIAL_TEMP_HISTORY;
  idRef := 100
|}.

(** ** Helpers *)

(** [h.slice(-n)]: the last [n] elements (the whole list when shorter). *)
Definition lastn {A} (n : nat) (l : list A) : list A := skipn (length l - n) l.

(** [[...h.slice(-19), x]]: the temperature-history update used by every path. *)
Definition pushSample (h : list Sample) (x : Sample) : list Sample :=
  lastn 19 h ++ [x].

Definition jsmax (a b : Q) : Q := if Qle_bool a b then b else a.
Definition jsmin (a b : Q) : Q := if Qle_bool a b then a else b.

(** [+(x).toFixed(1)]: round to one decimal, halves away from zero. *)
Definition toFixed1 (q : Q) : Q :=
  if Qle_bool 0 q then inject_Z (Qfloor (q * 10 + (1 # 2))) / 10
  else - (inject_Z (Qfloor (- q * 10 + (1 # 2))) / 10).

(** Record setters. *)
Definition setTrip (s : state) (d : TripData) : state :=
  {| crop := crop s; isAutoPlay := isAutoPlay s; tripData := d;
     incidents := incidents s; tempHistory := tempHistory s; idRef := idRef s |}.
Definition setHistory (s : state) (h : list Sample) : state :=
  {| crop := crop s; isAutoPlay := isAutoPlay s; tripData := tripData s;
     incidents := incidents s; tempHistory := h; idRef := idRef s |}.
Definition setLog (s : state) (l : list (option Incident)) (n : Z) : state :=
  {| crop := crop s; isAutoPlay := isAutoPlay s; tripData := tripData s;
     incidents := l; tempHistory := tempHistory s; idRef := n |}.
Definition setCrop (s : state) (c : Crop) : state :=
  {| crop := c; isAutoPlay := isAutoPlay s; tripData := tripData s;
     incidents := incidents s; tempHistory := tempHistory s; idRef := idRef s |}.
Definition setIsAutoPlay (s : state) (b : bool) : state :=
  {| crop := crop s; isAutoPlay := b; tripData := tripData s;
     incidents := incidents s; tempHistory := tempHistory s; idRef := idRef s |}.

Definition withTemp (d : TripData) (x : Q) : TripData :=
  {| cisScore := cisScore d; currentTemp := x; peakGForce := peakGForce d; currentTilt := currentTilt d |}.
Definition withG (d : TripData) (x : Q) : TripData :=
  {| cisScore := cisScore d; currentTemp := currentTemp d; peakGForce := x; currentTilt := currentTilt d |}.
Definition withTilt (d : TripData) (x : Q) : TripData :=
  {| cisScore := cisScore d; currentTemp := currentTemp d; peakGForce := peakGForce d; currentTilt := x |}.
Definition withCIS (d : TripData) (x : Z) : TripData :=
  {| cisScore := x; currentTemp := currentTemp d; peakGForce := peakGForce d; currentTilt := currentTilt d |}.

(** ** Handlers *)

(** [handleTempChange(val)]: stores [val] as is and appends [{time: t, temp: val}]
    to the history; [t] is [nowTime().slice(0, 5)]. *)
Definition handleTempChange (t : string) (val : Q) (s : state) : state :=
  setHistory (setTrip s (withTemp (tripData s) val)) (pushSample (tempHistory s) (smp t val)).

(** [handleGForceChange(val)]. *)
Definition handleGForceChange (val : Q) (s : state) : state :=
  setTrip s (withG (tripData s) val).

(** The bookkeeping shared by [handleInject] and the auto-play tick:
    [idRef.current += 1], the new entry (built from the new id) appended to
    [incidents], and [cisScore: Math.max(0, d.cisScore - deduction)]. *)
Definition recordIncident (mk : Z -> Incident) (s : state) : state :=
  let i := (idRef s + 1)%Z in
  let e := mk i in
  setTrip (setLog s (incidents s ++ [Some e]) i)
          (withCIS (tripData s) (Z.max 0 (cisScore (tripData s) - deduction e))).

(** [handleInject(type)].  The branches test [type] against ["pothole"],
    ["ac"] and ["shift"]; any other [type] leaves [entry] undefined, which
    is appended all the same. *)
Definition handleInject (t : string) (type : string) (s : state) : state :=
  let d := tripData s in
  if String.eqb type "pothole" then
    recordIncident (fun i => mkInc i t "Simulated Pothole" TCritical 3.5 (currentTemp d) 5 true)
      (setTrip s (withG d 3.5))
  else if String.eqb type "ac" then
    recordIncident (fun i => mkInc i t "Simulated AC Failure" TCritical (peakGForce d) 35.0 10 true)
      (setHistory (setTrip s (withTemp d 35.0)) (pushSample (tempHistory s) (smp t 35.0)))
  else if String.eqb type "shift" then
    recordIncident (fun i => mkInc i t "Simulated Cargo Shift" TCritical (peakGForce d) (currentTemp d) 6 true)
      (setTrip s (withTilt d 28))
  else
    let i := (idRef s + 1)%Z in
    setLog s (incidents s ++ [None]) i.

(** The body of the auto-play [setInterval] callback.  [r1], [r2], [r3] are
    the three [Math.random()] draws, in source order. *)
Definition autoTick (t : string) (r1 r2 r3 : Q) (s : state) : state :=
  let profile := CROP_PROFILES (crop s) in
  let prev := tripData s in
  let drift := toFixed1 (r1 * 1.0 - 0.5) in
  let newTemp := jsmin 45 (jsmax 15 (toFixed1 (currentTemp prev + drift))) in
  let shockFires := negb (Qle_bool 0.3 r2) in
  let newG := if shockFires then toFixed1 (0.5 + r3 * (gforceCritical profile * 1.8))
              else peakGForce prev in
  let s1 :=
    if shockFires && gtb newG (gforceCritical profile) then
      let pen := if gtb newG (gforceCritical profile * 1.5) then 3%Z else 1%Z in
      recordIncident (fun i => mkInc i t "Auto: Road Shock"
                         (if gtb newG (gforceCritical profile * 1.3) then TCritical else TWarning)
                         newG newTemp pen true) s
    else s in
  setHistory (setTrip s1 (withG (withTemp (tripData s1) newTemp) newG))
             (pushSample (tempHistory s1) (smp t newTemp)).

(** ** Operations of a session *)

Inductive op :=
| OSelectCrop (c : Crop)                  (* [setCrop(name)] from the crop menu *)
| OToggleAutoPlay                         (* [setIsAutoPlay(v => !v)] *)
| OTempChange (t : string) (v : Q)        (* temperature slider *)
| OGForceChange (v : Q)                   (* g-force slider *)
| OInject (t : string) (name : string)    (* [onInject(name)] *)
| OTick (t : string) (r1 r2 r3 : Q).      (* one firing of the interval *)

(** The interval is armed by the effect exactly while [isAutoPlay] holds
    ([if (!isAutoPlay) return;] and the cleanup [clearInterval]); a firing
    while it is not armed does nothing. *)
Definition step (s : state) (o : op) : state :=
  match o with
  | OSelectCrop c => setCrop s c
  | OToggleAutoPlay => setIsAutoPlay s (negb (isAutoPlay s))
  | OTempChange t v => handleTempChange t v s
  | OGForceChange v => handleGForceChange v s
  | OInject t n => handleInject t n s
  | OTick t r1 r2 r3 => if isAutoPlay s then autoTick t r1 r2 r3 s else s
  end.

Fixpoint run (s : state) (ops : list op) : state :=
  match ops with
  | [] => s
  | o :: os => run (step s o) os
  end.

(** Sum of the deductions of the incidents in a log ([undefined] entries
    carry none). *)
Fixpoint totalDeduction (l : list (option Incident)) : Z :=
  match l with
  | [] => 0
  | Some e :: l' => deduction e + totalDeduction l'
  | None :: l' => totalDeduction l'
  end%Z.

Fixpoint logIds (l : list (option Incident)) : list Z :=
  match l with
  | [] => []
  | Some e :: l' => id e :: logIds l'
  | None :: l' => logIds l'
  end.

Example initial_score : cisScore (tripData initialState) = 69%Z.
Proof. reflexivity. Qed.

(** A tick with the auto-play on, no drift and a 4.1 g shock (above
    [1.5 * gforceCritical] for Tomatoes): deduction 3 and id 101. *)
Example tick_shock_example :
  let s' := step (setIsAutoPlay initialState true) (OTick "13:20" 0.5 0 1) in
  cisScore (tripData s') = 66%Z /\ idRef s' = 101%Z /\ (length (incidents s') = 9)%nat /\
  peakGForce (tripData s') == 4.1.
Proof. vm_compute. repeat split; reflexivity. Qed.

(** * Properties *)

Lemma gtb_true (a b : Q) : gtb a b = true <-> b < a.
Proof.
  unfold gtb. rewrite Bool.negb_true_iff. split.
  - intros H. apply Qnot_le_lt. intros H'. apply Qle_bool_iff in H'. congruence.
  - intros H. destruct (Qle_bool a b) eqn:E; [|reflexivity].
    apply Qle_bool_iff in E. exfalso. apply (Qlt_not_le b a); assumption.
Qed.

Lemma gtb_false (a b : Q) : gtb a b = false <-> a <= b.
Proof.
  unfold gtb. rewrite Bool.negb_false_iff. apply Qle_bool_iff.
Qed.

Ltac gtb_cases :=
  repeat match goal with
  | |- context [gtb ?a ?b] =>
      let E := fresh "E" in
      destruct (gtb a b) eqn:E;
      [apply gtb_true in E | apply gtb_false in E]
  end.

(** Each status-key function, one at a time. *)
Lemma status_key_lemma_temp (x : Q) (p : CropProfile) :
  (getTempStatusKey x p = Critical <-> tempDanger p < x) /\
  (getTempStatusKey x p = Warning <-> x <= tempDanger p /\ tempWarning p < x) /\
  (getTempStatusKey x p = Optimal <-> x <= tempDanger p /\ x <= tempWarning p).
Proof.
  unfold getTempStatusKey. gtb_cases; repeat split; intros;
    try discriminate; try tauto; exfalso; eapply Qlt_not_le; eauto; tauto.
Qed.

Lemma status_key_lemma_gforce (x : Q) (p : CropProfile) :
  (getGForceStatusKey x p = Critical <-> gforceCritical p < x) /\
  (getGForceStatusKey x p = Warning <-> x <= gforceCritical p /\ gforceWarning p < x) /\
  (getGForceStatusKey x p = Stable <-> x <= gforceCritical p /\ x <= gforceWarning p).
Proof.
  unfold getGForceStatusKey. gtb_cases; repeat split; intros;
    try discriminate; try tauto; exfalso; eapply Qlt_not_le; eauto; tauto.
Qed.

Lemma status_key_lemma_tilt (x : Q) (p : CropProfile) :
  (getTiltStatusKey x p = Critical <-> tiltCritical p < x) /\
  (getTiltStatusKey x p = Warning <-> x <= tiltCritical p /\ tiltCritical p * 0.6 < x) /\
  (getTiltStatusKey x p = Stable <-> x <= tiltCritical p /\ x <= tiltCritical p * 0.6).
Proof.
  unfold getTiltStatusKey. gtb_cases; repeat split; intros;
    try discriminate; try tauto; exfalso; eapply Qlt_not_le; eauto; tauto.
Qed.

(** C6: the three status-key functions use strict [>] on every upper bound:
    the temperature key is [Critical] iff [temp > tempDanger], [Warning] iff
    [tempDanger >= temp > tempWarning], [Optimal] otherwise; the g-force key
    likewise with [gforceCritical]/[gforceWarning] ([Stable] otherwise); the
    tilt key is [Critical] iff [tilt > tiltCritical] and [Warning] iff
    [tiltCritical >= tilt > 0.6 * tiltCritical].  For Tomatoes
    ([tempDanger = 30]) the temperature 30.0 is [Warning] and 30.1 is
    [Critical]. *)
Theorem status_keys_strict :
  (forall x p,
     (getTempStatusKey x p = Critical <-> tempDanger p < x) /\
     (getTempStatusKey x p = Warning <-> x <= tempDanger p /\ tempWarning p < x) /\
     (getTempStatusKey x p = Optimal <-> x <= tempDanger p /\ x <= tempWarning p)) /\
  (forall x p,
     (getGForceStatusKey x p = Critical <-> gforceCritical p < x) /\
     (getGForceStatusKey x p = Warning <-> x <= gforceCritical p /\ gforceWarning p < x) /\
     (getGForceStatusKey x p = Stable <-> x <= gforceCritical p /\ x <= gforceWarning p)) /\
  (forall x p,
     (getTiltStatusKey x p = Critical <-> tiltCritical p < x) /\
     (getTiltStatusKey x p = Warning <-> x <= tiltCritical p /\ tiltCritical p * 0.6 < x) /\
     (getTiltStatusKey x p = Stable <-> x <= tiltCritical p /\ x <= tiltCritical p * 0.6)) /\
  getTempStatusKey 30.0 (CROP_PROFILES Tomatoes) = Warning /\
  getTempStatusKey 30.1 (CROP_PROFILES Tomatoes) = Critical.
Proof.
  split; [exact status_key_lemma_temp|].
  split; [exact status_key_lemma_gforce|].
  split; [exact status_key_lemma_tilt|].
  split; reflexivity.
Qed.

(** C10: [calcMarketLoss] is [-((100 - cis) / 100 * cargoValue)]; it is 0 at
    score 100 and [-v] at score 0 (as rationals), its magnitude strictly
    grows as the score decreases within [0, 100] for a positive cargo value,
    and [calcMarketLoss 69 10000] is [-3100]. *)
Theorem calcMarketLoss_spec :
  (forall cis v, calcMarketLoss cis v = - ((100 - cis) / 100 * v)) /\
  (forall v, calcMarketLoss 100 v == 0) /\
  (forall v, calcMarketLoss 0 v == - v) /\
  (forall s1 s2 v, 0 < v -> 0 <= s1 -> s1 < s2 -> s2 <= 100 ->
     Qabs (calcMarketLoss s2 v) < Qabs (calcMarketLoss s1 v)) /\
  calcMarketLoss 69 10000 == -3100.
Proof.
  split; [reflexivity|].
  split; [intros v; unfold calcMarketLoss; field|].
  split; [intros v; unfold calcMarketLoss; field|].
  split; [|reflexivity].
  intros s1 s2 v Hv H1 H12 H2. unfold calcMarketLoss.
  rewrite !Qabs_opp.
  assert (Hd : forall s, s <= 100 -> 0 <= (100 - s) / 100).
  { intros s Hs. apply Qle_shift_div_l; [reflexivity|].
    rewrite Qmult_0_l. apply (Qplus_le_l _ _ s). ring_simplify. exact Hs. }
  rewrite !Qabs_pos.
  - apply Qmult_lt_r; [exact Hv|].
    apply Qmult_lt_r; [reflexivity|].
    apply (Qplus_lt_l _ _ (s1 + s2)). ring_simplify.
    apply Qplus_lt_l. exact H12.
  - apply Qmult_le_0_compat; [apply Hd | apply Qlt_le_weak; exact Hv].
    apply (Qle_trans _ s2); [apply Qlt_le_weak; exact H12 | exact H2].
  - apply Qmult_le_0_compat; [apply Hd; exact H2 | apply Qlt_le_weak; exact Hv].
Qed.

Lemma calcMarketLoss_spec_witness :
  0 < 10000 /\ 0 <= 59 /\ 59 < 69 /\ 69 <= 100 /\
  Qabs (calcMarketLoss 69 10000) < Qabs (calcMarketLoss 59 10000).
Proof.
  assert (H1 : 0 < 10000) by reflexivity.
  assert (H2 : 0 <= 59) by discriminate.
  assert (H3 : 59 < 69) by reflexivity.
  assert (H4 : 69 <= 100) by discriminate.
  refine (conj H1 (conj H2 (conj H3 (conj H4 _)))).
  exact (proj1 (proj2 (proj2 (proj2 calcMarketLoss_spec))) 59 69 10000 H1 H2 H3 H4).
Defined.

(** C3 (counterexample): the temperature handler stores 100 when given 100,
    not 45. *)
Lemma handleTempChange_no_clamp :
  currentTemp (tripData (handleTempChange "12:00" 100 initialState)) = 100 /\
  ~ (currentTemp (tripData (handleTempChange "12:00" 100 initialState)) == 45).
Proof.
  split; [reflexivity|]. simpl. discriminate.
Qed.

(** C3 (amended): [handleTempChange t v] stores [v] itself as [currentTemp],
    appends the sample [{t, v}] to the history and leaves the score, the
    incident log and the id counter unchanged; [handleGForceChange v] stores
    [v] itself as [peakGForce] and changes nothing else.  Neither handler
    clamps; both are total (no error).  The ranges 15-45 and 0.5-5.0 are
    those of the sliders' [min]/[max] attributes, outside the handlers. *)
Theorem manual_override_stores_value (t : string) (v : Q) (s : state) :
  currentTemp (tripData (handleTempChange t v s)) = v /\
  tempHistory (handleTempChange t v s) = pushSample (tempHistory s) (smp t v) /\
  cisScore (tripData (handleTempChange t v s)) = cisScore (tripData s) /\
  incidents (handleTempChange t v s) = incidents s /\
  idRef (handleTempChange t v s) = idRef s /\
  handleGForceChange v s =
    setTrip s {| cisScore := cisScore (tripData s); currentTemp := currentTemp (tripData s);
                 peakGForce := v; currentTilt := currentTilt (tripData s) |}.
Proof. repeat split. Qed.

(** C2 (counterexample): ["ac_failure"] is not a branch of [handleInject]:
    from the initial session it leaves the temperature at 28.5 and the score
    at 69, and appends [undefined]. *)
Lemma inject_ac_failure_not_in_table :
  let s' := handleInject "11:00" "ac_failure" initialState in
  currentTemp (tripData s') = 28.5 /\ ~ (currentTemp (tripData s') == 35.0) /\
  cisScore (tripData s') = 69%Z /\
  incidents s' = incidents initialState ++ [None].
Proof.
  simpl. split; [reflexivity|]. split; [discriminate|]. split; reflexivity.
Qed.

Lemma inject_pothole_score (t : string) (s : state) :
  cisScore (tripData (handleInject t "pothole" s)) = Z.max 0 (cisScore (tripData s) - 5).
Proof. reflexivity. Qed.

Lemma inject_pothole_iter_score (t : string) (k : nat) (s : state) :
  (0 <= cisScore (tripData s))%Z ->
  cisScore (tripData (Nat.iter k (handleInject t "pothole") s)) =
    Z.max 0 (cisScore (tripData s) - 5 * Z.of_nat k).
Proof.
  intros H. induction k as [|k IH]; simpl Nat.iter.
  - lia.
  - rewrite inject_pothole_score, IH. lia.
Qed.

(** C2 (amended): the injection table of [handleInject] is keyed by
    ["pothole"], ["ac"] and ["shift"].  From any state, ["pothole"] sets
    [peakGForce] to 3.5 and appends one critical incident of deduction 5;
    ["ac"] sets [currentTemp] to 35.0, appends the sample [{t, 35.0}] to the
    history and one critical incident of deduction 10; ["shift"] sets
    [currentTilt] to 28 and appends one critical incident of deduction 6;
    each time the score becomes [max(0, score - deduction)] and the new
    incident gets id [idRef + 1].  Repeating ["pothole"] 20 times from score
    88 gives [max(0, 88 - 5k)] after [k] steps: never negative, and 0 after
    the 20th. *)
Theorem inject_table (t : string) (s : state) :
  (let s' := handleInject t "pothole" s in
   peakGForce (tripData s') = 3.5 /\
   cisScore (tripData s') = Z.max 0 (cisScore (tripData s) - 5) /\
   tempHistory s' = tempHistory s /\
   exists e, incidents s' = incidents s ++ [Some e] /\ deduction e = 5%Z /\
             itype e = TCritical /\ id e = (idRef s + 1)%Z) /\
  (let s' := handleInject t "ac" s in
   currentTemp (tripData s') = 35.0 /\
   cisScore (tripData s') = Z.max 0 (cisScore (tripData s) - 10) /\
   tempHistory s' = pushSample (tempHistory s) (smp t 35.0) /\
   exists e, incidents s' = incidents s ++ [Some e] /\ deduction e = 10%Z /\
             itype e = TCritical /\ id e = (idRef s + 1)%Z) /\
  (let s' := handleInject t "shift" s in
   currentTilt (tripData s') = 28 /\
   cisScore (tripData s') = Z.max 0 (cisScore (tripData s) - 6) /\
   tempHistory s' = tempHistory s /\
   exists e, incidents s' = incidents s ++ [Some e] /\ deduction e = 6%Z /\
             itype e = TCritical /\ id e = (idRef s + 1)%Z) /\
  (cisScore (tripData s) = 88%Z ->
   (forall k, (k <= 20)%nat ->
      cisScore (tripData (Nat.iter k (handleInject t "pothole") s)) =
        Z.max 0 (88 - 5 * Z.of_nat k) /\
      (0 <= cisScore (tripData (Nat.iter k (handleInject t "pothole") s)))%Z) /\
   cisScore (tripData (Nat.iter 20 (handleInject t "pothole") s)) = 0%Z).
Proof.
  split; [simpl; repeat split; eexists; repeat split|].
  split; [simpl; repeat split; eexists; repeat split|].
  split; [simpl; repeat split; eexists; repeat split|].
  intros H88. split.
  - intros k _. rewrite inject_pothole_iter_score by lia. rewrite H88. lia.
  - rewrite inject_pothole_iter_score by lia. rewrite H88. reflexivity.
Qed.

Lemma inject_table_witness :
  cisScore (tripData (setTrip initialState (withCIS (tripData initialState) 88))) = 88%Z /\
  cisScore (tripData (Nat.iter 20 (handleInject "14:00" "pothole")
                        (setTrip initialState (withCIS (tripData initialState) 88)))) = 0%Z.
Proof.
  assert (H : cisScore (tripData (setTrip initialState (withCIS (tripData initialState) 88))) = 88%Z)
    by reflexivity.
  split; [exact H|].
  exact (proj2 (proj2 (proj2 (proj2 (inject_table "14:00" _))) H)).
Defined.

(** ** How one operation changes the log, the counter and the score *)

(** Either nothing is appended, or [undefined] is appended and the counter
    advanced, or one incident with id [idRef + 1] and a non-negative
    deduction is appended, the counter advanced and the score lowered by
    [Math.max(0, score - deduction)]. *)
Definition logStep (s s' : state) : Prop :=
  (incidents s' = incidents s /\ idRef s' = idRef s /\
   cisScore (tripData s') = cisScore (tripData s)) \/
  (incidents s' = incidents s ++ [None] /\ idRef s' = (idRef s + 1)%Z /\
   cisScore (tripData s') = cisScore (tripData s)) \/
  (exists e, incidents s' = incidents s ++ [Some e] /\ id e = (idRef s + 1)%Z /\
   idRef s' = (idRef s + 1)%Z /\ (0 <= deduction e)%Z /\
   cisScore (tripData s') = Z.max 0 (cisScore (tripData s) - deduction e)).

Lemma recordIncident_logStep (mk : Z -> Incident) (s s0 : state) :
  incidents s0 = incidents s -> idRef s0 = idRef s ->
  cisScore (tripData s0) = cisScore (tripData s) ->
  id (mk (idRef s + 1)%Z) = (idRef s + 1)%Z ->
  (0 <= deduction (mk (idRef s + 1)%Z))%Z ->
  logStep s (recordIncident mk s0).
Proof.
  intros Hl Hn Hc Hi Hd. right; right. exists (mk (idRef s + 1)%Z).
  unfold recordIncident. simpl. rewrite Hl, Hn, Hc. repeat split; assumption.
Qed.

Lemma logStep_same_after (s s1 : state) (d : TripData) (h : list Sample) :
  logStep s s1 -> cisScore d = cisScore (tripData s1) ->
  logStep s (setHistory (setTrip s1 d) h).
Proof.
  intros H Hd. unfold logStep in *. simpl. rewrite Hd. exact H.
Qed.

Lemma step_logStep (s : state) (o : op) : logStep s (step s o).
Proof.
  destruct o as [c| |t v|v|t n|t r1 r2 r3]; simpl step.
  - left; repeat split.
  - left; repeat split.
  - left; repeat split.
  - left; repeat split.
  - unfold handleInject.
    destruct (String.eqb n "pothole");
      [apply recordIncident_logStep; simpl; try reflexivity; lia|].
    destruct (String.eqb n "ac");
      [apply recordIncident_logStep; simpl; try reflexivity; lia|].
    destruct (String.eqb n "shift");
      [apply recordIncident_logStep; simpl; try reflexivity; lia|].
    right; left; repeat split.
  - destruct (isAutoPlay s); [|left; repeat split].
    unfold autoTick. cbv zeta.
    apply logStep_same_after; [|reflexivity].
    destruct (_ && _).
    + apply recordIncident_logStep; simpl; try reflexivity.
      destruct (gtb _ _); lia.
    + left; repeat split.
Qed.

Lemma logStep_idRef_mono (s s' : state) : logStep s s' -> (idRef s <= idRef s')%Z.
Proof.
  intros [(_ & H & _)|[(_ & H & _)|(e & _ & _ & H & _)]]; lia.
Qed.

(** ** Score invariant *)

Definition dedOk (o : option Incident) : Prop :=
  match o with Some e => (0 <= deduction e)%Z | None => True end.

Definition scoreInv (s : state) : Prop :=
  cisScore (tripData s) = Z.max 0 (BASE_CIS - totalDeduction (incidents s)) /\
  Forall dedOk (incidents s).

Lemma totalDeduction_app (l1 l2 : list (option Incident)) :
  totalDeduction (l1 ++ l2) = (totalDeduction l1 + totalDeduction l2)%Z.
Proof.
  induction l1 as [|[e|] l1 IH]; simpl; rewrite ?IH; lia.
Qed.

Lemma totalDeduction_nonneg (l : list (option Incident)) :
  Forall dedOk l -> (0 <= totalDeduction l)%Z.
Proof.
  induction 1 as [|[e|] l H _ IH]; simpl in *; lia.
Qed.

Lemma logStep_scoreInv (s s' : state) : logStep s s' -> scoreInv s -> scoreInv s'.
Proof.
  intros Hs [Hc Hf]. unfold scoreInv, BASE_CIS in *.
  pose proof (totalDeduction_nonneg _ Hf) as Hn.
  destruct Hs as [(Hl & _ & Hc')|[(Hl & _ & Hc')|(e & Hl & _ & _ & Hd & Hc')]];
    rewrite Hl, Hc'.
  - split; assumption.
  - rewrite totalDeduction_app. cbn [totalDeduction]. split; [lia|].
    apply Forall_app; split; [assumption | repeat constructor].
  - rewrite totalDeduction_app. cbn [totalDeduction]. rewrite Hc. split; [lia|].
    apply Forall_app; split; [assumption | repeat constructor; exact Hd].
Qed.

Lemma run_scoreInv (ops : list op) : forall s, scoreInv s -> scoreInv (run s ops).
Proof.
  induction ops as [|o ops IH]; intros s H; simpl; [exact H|].
  apply IH. apply (logStep_scoreInv s); [apply step_logStep | exact H].
Qed.

Lemma initial_scoreInv : scoreInv initialState.
Proof.
  split; [reflexivity|]. repeat constructor; simpl; lia.
Qed.

(** C1: in every state reached from the initial session by any sequence of
    crop switches, auto-play toggles, slider overrides, injections and
    ticks, the score is [max(0, 88 - sum of the deductions of the log)]
    (the seed incidents included), and it lies in [0, 100]. *)
Theorem cis_invariant (ops : list op) :
  let s := run initialState ops in
  cisScore (tripData s) = Z.max 0 (BASE_CIS - totalDeduction (incidents s)) /\
  (0 <= cisScore (tripData s) <= 100)%Z.
Proof.
  cbv zeta. destruct (run_scoreInv ops initialState initial_scoreInv) as [Hc Hf].
  pose proof (totalDeduction_nonneg _ Hf). split; [exact Hc|].
  rewrite Hc. unfold BASE_CIS. lia.
Qed.

(** ** What one operation appends to the log *)

(** The deductions the code itself passes when it appends an incident:
    5, 10 and 6 in the three branches of [handleInject], 1 or 3 in the
    tick.  An [undefined] entry carries none. *)
Definition codeDed (o : option Incident) : Prop :=
  match o with Some e => In (deduction e) [5; 10; 6; 1; 3]%Z | None => True end.

Definition isIncident (o : option Incident) : bool :=
  match o with Some _ => true | None => false end.

(** An operation that appends no [undefined] entry: every operation but an
    injection whose name is none of the three table keys (the drawer's
    buttons pass only these three). *)
Definition knownInject (o : op) : bool :=
  match o with
  | OInject _ n => (String.eqb n "pothole" || String.eqb n "ac" || String.eqb n "shift")%bool
  | _ => true
  end.

Lemma step_appends_fixed (s : state) (o : op) :
  exists new, incidents (step s o) = incidents s ++ new /\ Forall codeDed new /\
              forallb isIncident new = knownInject o.
Proof.
  destruct o as [c| |t v|v|t n|t r1 r2 r3]; simpl step;
    try (exists []; rewrite app_nil_r; split; [reflexivity | split; [constructor | reflexivity]]).
  - unfold handleInject. cbn [knownInject].
    destruct (String.eqb n "pothole");
      [eexists; split; [reflexivity | split; [apply Forall_cons; [simpl; tauto | constructor] | reflexivity]]|].
    destruct (String.eqb n "ac");
      [eexists; split; [reflexivity | split; [apply Forall_cons; [simpl; tauto | constructor] | reflexivity]]|].
    destruct (String.eqb n "shift");
      [eexists; split; [reflexivity | split; [apply Forall_cons; [simpl; tauto | constructor] | reflexivity]]|].
    eexists; split; [reflexivity | split; [repeat constructor | reflexivity]].
  - destruct (isAutoPlay s);
      [|exists []; rewrite app_nil_r; split; [reflexivity | split; [constructor | reflexivity]]].
    unfold autoTick. cbv zeta. simpl tempHistory. simpl incidents.
    destruct (_ && _).
    + eexists; split; [reflexivity|]. split; [|reflexivity].
      apply Forall_cons; [|constructor]. simpl. destruct (gtb _ _); simpl; tauto.
    + exists []; rewrite app_nil_r; split; [reflexivity | split; [constructor | reflexivity]].
Qed.

Lemma run_appends_fixed (ops : list op) : forall s,
  exists new, incidents (run s ops) = incidents s ++ new /\ Forall codeDed new /\
              forallb isIncident new = forallb knownInject ops.
Proof.
  induction ops as [|o ops IH]; intros s; simpl.
  - exists []. rewrite app_nil_r. split; [reflexivity | split; [constructor | reflexivity]].
  - destruct (step_appends_fixed s o) as (n1 & E1 & F1 & B1).
    destruct (IH (step s o)) as (n2 & E2 & F2 & B2).
    exists (n1 ++ n2). rewrite E2, E1, app_assoc. split; [reflexivity|]. split.
    + apply Forall_app; split; assumption.
    + rewrite forallb_app, B1, B2. reflexivity.
Qed.

(** C5: the code has no [appendIncident] with a deduction argument.  Its
    append paths ([handleInject] and the tick) pass deductions fixed in the
    code, so from any reachable state, whatever the next operation, every
    incident it appends has a deduction among 5, 10, 6, 1 and 3: no append
    ever receives a negative deduction.  In every reachable state every
    incident of the log (the seeds, with deductions 0 to 7, included) has a
    deduction >= 0. *)
Theorem deductions_nonneg (ops : list op) (o : op) :
  let s := run initialState ops in
  Forall dedOk (incidents s) /\
  exists new, incidents (step s o) = incidents s ++ new /\ Forall codeDed new.
Proof.
  cbv zeta. split; [exact (proj2 (run_scoreInv ops initialState initial_scoreInv))|].
  destruct (step_appends_fixed (run initialState ops) o) as (new & E & F & _).
  exists new. split; assumption.
Qed.

(** C4 (counterexample): an unrecognised name raises nothing; the call
    completes and returns a new state, in which the id counter has moved
    from 100 to 101 and the log has grown by one entry. *)
Lemma inject_unknown_no_error :
  let s' := handleInject "14:00" "flood" initialState in
  idRef s' = 101%Z /\ (length (incidents s') = 9)%nat.
Proof. split; reflexivity. Qed.

(** C4 (amended): [handleInject] has no error path.  For a name other than
    ["pothole"], ["ac"] and ["shift"] it completes without raising and
    leaves the telemetry snapshot (score, temperature, g-force, tilt), the
    temperature history, the crop and the auto-play flag unchanged. *)
Theorem inject_unknown_keeps_telemetry (t n : string) (s : state) :
  n <> "pothole"%string -> n <> "ac"%string -> n <> "shift"%string ->
  tripData (handleInject t n s) = tripData s /\
  tempHistory (handleInject t n s) = tempHistory s /\
  crop (handleInject t n s) = crop s /\
  isAutoPlay (handleInject t n s) = isAutoPlay s.
Proof.
  intros H1 H2 H3. unfold handleInject.
  apply String.eqb_neq in H1, H2, H3. rewrite H1, H2, H3.
  repeat split.
Qed.

Lemma inject_unknown_keeps_telemetry_witness :
  tripData (handleInject "14:00" "ac_failure" initialState) = tripData initialState /\
  tempHistory (handleInject "14:00" "ac_failure" initialState) = tempHistory initialState.
Proof.
  assert (H1 : "ac_failure"%string <> "pothole"%string) by discriminate.
  assert (H2 : "ac_failure"%string <> "ac"%string) by discriminate.
  assert (H3 : "ac_failure"%string <> "shift"%string) by discriminate.
  destruct (inject_unknown_keeps_telemetry "14:00" _ initialState H1 H2 H3) as (Ha & Hb & _).
  exact (conj Ha Hb).
Defined.

(** ** Incident ids *)

Lemma logIds_app (l1 l2 : list (option Incident)) :
  logIds (l1 ++ l2) = logIds l1 ++ logIds l2.
Proof. induction l1 as [|[e|] l1 IH]; simpl; rewrite ?IH; reflexivity. Qed.

Lemma StronglySorted_app_lt (l1 l2 : list Z) :
  StronglySorted Z.lt l1 -> StronglySorted Z.lt l2 ->
  (forall x y, In x l1 -> In y l2 -> (x < y)%Z) ->
  StronglySorted Z.lt (l1 ++ l2).
Proof.
  induction 1 as [|a l1 _ IH Ha]; intros H2 Hlt; simpl; [exact H2|].
  constructor.
  - apply IH; [exact H2|]. intros x y Hx Hy. apply Hlt; [right|]; assumption.
  - apply Forall_app; split; [exact Ha|].
    apply Forall_forall. intros y Hy. apply Hlt; [left; reflexivity | exact Hy].
Qed.

Lemma StronglySorted_lt_NoDup (l : list Z) : StronglySorted Z.lt l -> NoDup l.
Proof.
  induction 1 as [|a l _ IH Ha]; constructor; [|exact IH].
  intros Hin. rewrite Forall_forall in Ha. specialize (Ha a Hin). lia.
Qed.

Definition idInv (s : state) : Prop :=
  StronglySorted Z.lt (logIds (incidents s)) /\
  Forall (fun i => (i <= idRef s)%Z) (logIds (incidents s)).

Lemma logStep_idInv (s s' : state) : logStep s s' -> idInv s -> idInv s'.
Proof.
  intros Hs [Hsort Hle]. unfold idInv.
  destruct Hs as [(Hl & Hn & _)|[(Hl & Hn & _)|(e & Hl & Hi & Hn & _)]];
    rewrite Hl, Hn; rewrite ?logIds_app; simpl; rewrite ?app_nil_r.
  - split; assumption.
  - split; [exact Hsort|]. eapply Forall_impl; [|exact Hle]. simpl; intros; lia.
  - split.
    + apply StronglySorted_app_lt; [exact Hsort | repeat constructor |].
      intros x y Hx [<-|[]]. rewrite Forall_forall in Hle. specialize (Hle x Hx). lia.
    + apply Forall_app; split.
      * eapply Forall_impl; [|exact Hle]. simpl; intros; lia.
      * constructor; [lia | constructor].
Qed.

Lemma run_idInv (ops : list op) : forall s, idInv s -> idInv (run s ops).
Proof.
  induction ops as [|o ops IH]; intros s H; simpl; [exact H|].
  apply IH. apply (logStep_idInv s); [apply step_logStep | exact H].
Qed.

(** The log only grows, and whatever a run appends has ids above the
    counter it started from. *)
Lemma run_appends (ops : list op) : forall s,
  exists rest, incidents (run s ops) = incidents s ++ rest /\
    (forall e, In (Some e) rest -> (idRef s < id e)%Z).
Proof.
  induction ops as [|o ops IH]; intros s; simpl.
  - exists []. split; [symmetry; apply app_nil_r | intros e []].
  - destruct (IH (step s o)) as (rest & Hr & Hgt).
    pose proof (step_logStep s o) as Hs.
    pose proof (logStep_idRef_mono _ _ Hs) as Hm.
    destruct Hs as [(Hl & _ & _)|[(Hl & _ & _)|(e & Hl & Hi & _)]];
      rewrite Hl in Hr.
    + exists rest. split; [exact Hr|]. intros e He. specialize (Hgt e He). lia.
    + exists (None :: rest). rewrite Hr, <- app_assoc. split; [reflexivity|].
      intros e [He|He]; [discriminate|]. specialize (Hgt e He). lia.
    + exists (Some e :: rest). rewrite Hr, <- app_assoc. split; [reflexivity|].
      intros e' [He|He]; [injection He as <-; lia|]. specialize (Hgt e' He). lia.
Qed.

Lemma initial_idInv : idInv initialState.
Proof.
  split; simpl; repeat constructor; lia.
Qed.

(** C7: in every state reached from the initial session, the ids of the
    log are strictly increasing in append order and pairwise distinct; the
    counter starts at 100, above every seed id; the seed incidents stay the
    prefix of the log, and every incident appended after them has an id
    greater than every seed id. *)
Theorem ids_strictly_increasing (ops : list op) :
  let s := run initialState ops in
  StronglySorted Z.lt (logIds (incidents s)) /\
  NoDup (logIds (incidents s)) /\
  Forall (fun e => (id e < idRef initialState)%Z) INITIAL_INCIDENTS /\
  exists rest, incidents s = map Some INITIAL_INCIDENTS ++ rest /\
    (forall e e0, In (Some e) rest -> In e0 INITIAL_INCIDENTS -> (id e0 < id e)%Z).
Proof.
  cbv zeta.
  destruct (run_idInv ops initialState initial_idInv) as [Hsort _].
  assert (Hseed : Forall (fun e => (id e < idRef initialState)%Z) INITIAL_INCIDENTS).
  { simpl. repeat constructor; simpl; lia. }
  split; [exact Hsort|].
  split; [apply StronglySorted_lt_NoDup; exact Hsort|].
  split; [exact Hseed|].
  destruct (run_appends ops initialState) as (rest & Hr & Hgt).
  exists rest. split; [exact Hr|].
  intros e e0 He He0. rewrite Forall_forall in Hseed.
  specialize (Hseed e0 He0). specialize (Hgt e He). lia.
Qed.

(** ** Temperature history *)

(** The samples one operation appends to the history, in order. *)
Definition appendedSamples (s : state) (o : op) : list Sample :=
  match o with
  | OTempChange t v => [smp t v]
  | OInject t n =>
      if String.eqb n "pothole" then []
      else if String.eqb n "ac" then [smp t 35.0]
      else []
  | OTick t r1 _ _ =>
      if isAutoPlay s then
        [smp t (jsmin 45 (jsmax 15 (toFixed1 (currentTemp (tripData s) + toFixed1 (r1 * 1.0 - 0.5)))))]
      else []
  | _ => []
  end.

Fixpoint runSamples (s : state) (ops : list op) : list Sample :=
  match ops with
  | [] => []
  | o :: os => appendedSamples s o ++ runSamples (step s o) os
  end.

Lemma step_history (s : state) (o : op) :
  tempHistory (step s o) = fold_left pushSample (appendedSamples s o) (tempHistory s).
Proof.
  destruct o as [c| |t v|v|t n|t r1 r2 r3]; simpl step; simpl appendedSamples;
    try reflexivity.
  - unfold handleInject.
    destruct (String.eqb n "pothole"); [reflexivity|].
    destruct (String.eqb n "ac"); [reflexivity|].
    destruct (String.eqb n "shift"); reflexivity.
  - destruct (isAutoPlay s); [|reflexivity].
    unfold autoTick. cbv zeta. destruct (_ && _); reflexivity.
Qed.

Lemma run_history (ops : list op) : forall s,
  tempHistory (run s ops) = fold_left pushSample (runSamples s ops) (tempHistory s).
Proof.
  induction ops as [|o ops IH]; intros s; simpl; [reflexivity|].
  rewrite IH, step_history, fold_left_app. reflexivity.
Qed.

Lemma lastn_unique {A} (n : nat) (pre suf : list A) :
  length suf = Nat.min n (length (pre ++ suf)) -> lastn n (pre ++ suf) = suf.
Proof.
  intros H. unfold lastn. rewrite length_app in *.
  replace (length pre + length suf - n)%nat with (length pre) by lia.
  rewrite skipn_app, skipn_all, Nat.sub_diag. reflexivity.
Qed.

Lemma lastn_length {A} (n : nat) (l : list A) : length (lastn n l) = Nat.min n (length l).
Proof. unfold lastn. rewrite length_skipn. lia. Qed.

Lemma lastn_short {A} (n : nat) (l : list A) : (length l <= n)%nat -> lastn n l = l.
Proof. intros H. unfold lastn. replace (length l - n)%nat with 0%nat by lia. reflexivity. Qed.

Lemma lastn_app_long {A} (n : nat) (pre r : list A) :
  (n <= length r)%nat -> lastn n (pre ++ r) = lastn n r.
Proof.
  intros H. unfold lastn at 2.
  rewrite <- (firstn_skipn (length r - n)%nat r) at 1. rewrite app_assoc.
  apply lastn_unique. rewrite !length_app, length_skipn, length_firstn. lia.
Qed.

(** [[...h.slice(-19), x]] keeps the last 20 of [h ++ [x]]. *)
Lemma pushSample_lastn (h : list Sample) (x : Sample) :
  pushSample h x = lastn 20 (h ++ [x]).
Proof.
  unfold pushSample. destruct (Nat.le_gt_cases (length h) 19) as [Hs|Hl].
  - rewrite lastn_short by lia. rewrite lastn_short; [reflexivity|].
    rewrite length_app. simpl. lia.
  - unfold lastn at 1. symmetry.
    transitivity (lastn 20 ((firstn (length h - 19) h ++ skipn (length h - 19) h) ++ [x]));
      [rewrite firstn_skipn; reflexivity|].
    rewrite <- app_assoc. apply lastn_unique.
    rewrite !length_app, length_skipn, length_firstn. cbn [length]. lia.
Qed.

Lemma lastn_lastn_app {A} (n : nat) (l r : list A) :
  lastn n (lastn n l ++ r) = lastn n (l ++ r).
Proof.
  destruct (Nat.le_gt_cases (length l) n) as [Hs|Hl].
  - rewrite (lastn_short n l Hs). reflexivity.
  - symmetry.
    transitivity (lastn n ((firstn (length l - n) l ++ lastn n l) ++ r));
      [unfold lastn at 2; rewrite firstn_skipn; reflexivity|].
    rewrite <- app_assoc. apply lastn_app_long.
    rewrite length_app, lastn_length. lia.
Qed.

Lemma fold_pushSample (xs : list Sample) : forall h,
  (length h <= 20)%nat -> fold_left pushSample xs h = lastn 20 (h ++ xs).
Proof.
  induction xs as [|x xs IH]; intros h Hh; simpl.
  - rewrite app_nil_r, lastn_short by exact Hh. reflexivity.
  - rewrite IH.
    + rewrite pushSample_lastn, lastn_lastn_app, <- app_assoc. reflexivity.
    + rewrite pushSample_lastn, lastn_length. lia.
Qed.

(** C8: in every state reached from the initial session the history holds
    at most 20 samples; from such a state, whatever the operations appended
    (slider, ["ac"] injection, ticks), the history is the last 20 of the old
    history followed by the appended samples in order; and when exactly 25
    samples were appended it is the last 20 of them, oldest first, and has
    length 20. *)
Theorem temp_history_window (ops1 ops2 : list op) :
  let s := run initialState ops1 in
  (length (tempHistory s) <= 20)%nat /\
  tempHistory (run s ops2) = lastn 20 (tempHistory s ++ runSamples s ops2) /\
  (length (runSamples s ops2) = 25%nat ->
   tempHistory (run s ops2) = skipn 5 (runSamples s ops2) /\
   length (tempHistory (run s ops2)) = 20%nat).
Proof.
  cbv zeta.
  assert (Hlen : (length (tempHistory (run initialState ops1)) <= 20)%nat).
  { rewrite run_history, fold_pushSample by (simpl; lia).
    rewrite lastn_length. lia. }
  assert (Hwin : tempHistory (run (run initialState ops1) ops2) =
                 lastn 20 (tempHistory (run initialState ops1) ++
                           runSamples (run initialState ops1) ops2)).
  { rewrite run_history. apply fold_pushSample. exact Hlen. }
  split; [exact Hlen|]. split; [exact Hwin|].
  intros H25. rewrite Hwin, lastn_app_long by lia.
  split.
  - unfold lastn. rewrite H25. reflexivity.
  - rewrite lastn_length. lia.
Qed.

Lemma temp_history_window_witness :
  length (runSamples (run initialState []) (repeat (OTempChange "15:00" 20) 25)) = 25%nat /\
  length (tempHistory (run (run initialState []) (repeat (OTempChange "15:00" 20) 25))) = 20%nat.
Proof.
  assert (H : length (runSamples (run initialState []) (repeat (OTempChange "15:00" 20) 25)) = 25%nat)
    by reflexivity.
  split; [exact H|].
  exact (proj2 (proj2 (proj2 (temp_history_window [] (repeat (OTempChange "15:00" 20) 25))) H)).
Defined.

(** * Further properties of the dashboard *)

(** ** Score bands of the display *)

(** [cisRiskLabel] in [Dashboard]. *)
Definition cisRiskLabel (cis : Z) : string :=
  if (85 <=? cis)%Z then "Good Condition"
  else if (70 <=? cis)%Z then "Moderate Risk" else "High Risk".

(** [verdictRisk] in [Dashboard]. *)
Definition verdictRisk (cis : Z) : string :=
  if (85 <=? cis)%Z then "LOW RISK"
  else if (70 <=? cis)%Z then "MODERATE RISK" else "HIGH RISK".

(** The stroke colour of [CircularGauge] ([value >= 85 ? ... : value >= 70 ? ... : ...]). *)
Definition gaugeColor (value : Z) : string :=
  if (85 <=? value)%Z then "#10b981"
  else if (70 <=? value)%Z then "#f59e0b" else "#ef4444".

(** The colour of the CIS cell of the drawer's live readout
    ([cisScore < 70 ? ... : cisScore < 85 ? ... : ...]). *)
Definition drawerCisColor (cis : Z) : string :=
  if (cis <? 70)%Z then "#ef4444"
  else if (cis <? 85)%Z then "#f59e0b" else "#10b981".

(** The market loss shown for a state: [calcMarketLoss(tripData.cisScore, profile.cargoValue)]. *)
Definition marketLoss (s : state) : Q :=
  calcMarketLoss (inject_Z (cisScore (tripData s))) (cargoValue (CROP_PROFILES (crop s))).

Lemma logStep_score_mono (s s' : state) :
  logStep s s' -> (cisScore (tripData s') <= Z.max 0 (cisScore (tripData s)))%Z.
Proof.
  intros [(_ & _ & H)|[(_ & _ & H)|(e & _ & _ & _ & Hd & H)]]; rewrite H; lia.
Qed.

Lemma run_score_mono (ops : list op) : forall s,
  (0 <= cisScore (tripData s))%Z ->
  (0 <= cisScore (tripData (run s ops)) <= cisScore (tripData s))%Z.
Proof.
  induction ops as [|o ops IH]; intros s H; simpl; [lia|].
  pose proof (logStep_score_mono _ _ (step_logStep s o)) as Hm.
  assert (H0 : (0 <= cisScore (tripData (step s o)))%Z).
  { destruct (step_logStep s o) as [(_ & _ & E)|[(_ & _ & E)|(e & _ & _ & _ & _ & E)]];
      rewrite E; lia. }
  specialize (IH _ H0). lia.
Qed.

(** The score never increases along a session: from any state with a
    non-negative score, any sequence of operations ends with a score
    between 0 and the starting score. *)
Theorem score_never_increases (s : state) (ops : list op) :
  (0 <= cisScore (tripData s))%Z ->
  (0 <= cisScore (tripData (run s ops)) <= cisScore (tripData s))%Z.
Proof. apply run_score_mono. Qed.

Lemma score_never_increases_witness :
  (0 <= cisScore (tripData initialState))%Z /\
  (0 <= cisScore (tripData (run initialState [OInject "14:00" "ac"]))
     <= cisScore (tripData initialState))%Z.
Proof.
  assert (H : (0 <= cisScore (tripData initialState))%Z) by (vm_compute; discriminate).
  exact (conj H (score_never_increases initialState [OInject "14:00" "ac"] H)).
Defined.

(** The gauge colour, the drawer's CIS colour, the risk label and the
    verdict badge use the same two cut-offs (85 and 70): for every score
    they show the same band. *)
Theorem score_bands_agree (cis : Z) :
  drawerCisColor cis = gaugeColor cis /\
  ((gaugeColor cis = "#10b981" /\ cisRiskLabel cis = "Good Condition" /\
    verdictRisk cis = "LOW RISK" /\ (85 <= cis)%Z) \/
   (gaugeColor cis = "#f59e0b" /\ cisRiskLabel cis = "Moderate Risk" /\
    verdictRisk cis = "MODERATE RISK" /\ (70 <= cis < 85)%Z) \/
   (gaugeColor cis = "#ef4444" /\ cisRiskLabel cis = "High Risk" /\
    verdictRisk cis = "HIGH RISK" /\ (cis < 70)%Z))%string.
Proof.
  unfold drawerCisColor, gaugeColor, cisRiskLabel, verdictRisk.
  destruct (Z.leb_spec 85 cis); destruct (Z.leb_spec 70 cis);
    destruct (Z.ltb_spec cis 70); destruct (Z.ltb_spec cis 85);
    try lia; split; try reflexivity.
  - left. repeat split; lia.
  - right; left. repeat split; lia.
  - right; right. repeat split; lia.
Qed.

(** Since the session starts at score 69 and the score never increases,
    every reachable state shows the lowest band: "High Risk", "HIGH RISK",
    the red gauge; and its market loss lies between [-cargoValue] and
    [-0.31 * cargoValue] of the selected crop. *)
Theorem reachable_high_risk (ops : list op) :
  let s := run initialState ops in
  cisRiskLabel (cisScore (tripData s)) = "High Risk"%string /\
  verdictRisk (cisScore (tripData s)) = "HIGH RISK"%string /\
  gaugeColor (cisScore (tripData s)) = "#ef4444"%string /\
  - cargoValue (CROP_PROFILES (crop s)) <= marketLoss s <=
  - (31 / 100 * cargoValue (CROP_PROFILES (crop s))).
Proof.
  cbv zeta.
  assert (H : (0 <= cisScore (tripData (run initialState ops)) <= 69)%Z).
  { apply (run_score_mono ops initialState). vm_compute. discriminate. }
  unfold cisRiskLabel, verdictRisk, gaugeColor.
  destruct (Z.leb_spec 85 (cisScore (tripData (run initialState ops)))); [lia|].
  destruct (Z.leb_spec 70 (cisScore (tripData (run initialState ops)))); [lia|].
  split; [reflexivity|]. split; [reflexivity|]. split; [reflexivity|].
  unfold marketLoss, calcMarketLoss.
  assert (Hv : 0 < cargoValue (CROP_PROFILES (crop (run initialState ops))))
    by (destruct (crop (run initialState ops)); reflexivity).
  set (v := cargoValue (CROP_PROFILES (crop (run initialState ops)))) in *.
  set (c := cisScore (tripData (run initialState ops))) in *.
  assert (Hc0 : 0 <= inject_Z c) by (change 0 with (inject_Z 0); rewrite <- Zle_Qle; lia).
  assert (Hc1 : inject_Z c <= 69) by (change 69 with (inject_Z 69); rewrite <- Zle_Qle; lia).
  split.
  - apply Qopp_le_compat.
    setoid_replace v with (1 * v) at 2 by ring.
    apply Qmult_le_r; [exact Hv|].
    apply Qle_shift_div_r; [reflexivity|].
    setoid_replace (1 * 100) with (100 - 0) by ring.
    apply Qplus_le_r. apply Qopp_le_compat. exact Hc0.
  - apply Qopp_le_compat.
    apply Qmult_le_r; [exact Hv|].
    apply Qle_shift_div_l; [reflexivity|].
    setoid_replace (31 / 100 * 100) with (100 - 69) by reflexivity.
    apply Qplus_le_r. apply Qopp_le_compat. exact Hc1.
Qed.

(** ** The drawer's inject buttons *)

(** The three buttons of the drawer: the name each sends to [onInject], the
    score drop of its subtitle ("CIS -5%", "-10%", "-6%") and the factor of
    its advertised dollar loss ([(0.05 * profile.cargoValue)], ...). *)
Definition injectButtons : list (string * Z * Q) :=
  [("pothole"%string, 5%Z, 0.05); ("ac"%string, 10%Z, 0.10); ("shift"%string, 6%Z, 0.06)].

Lemma handleInject_crop (t n : string) (s : state) : crop (handleInject t n s) = crop s.
Proof.
  unfold handleInject.
  destruct (String.eqb n "pothole"); [reflexivity|].
  destruct (String.eqb n "ac"); [reflexivity|].
  destruct (String.eqb n "shift"); reflexivity.
Qed.

(** Each button does what its subtitle advertises, as long as the score is
    at least the advertised drop: the score falls by exactly that drop and
    the displayed market loss grows by exactly the advertised dollar amount
    of the selected crop. *)
Theorem inject_buttons_match_subtitles (t : string) (s : state) (n : string) (d : Z) (r : Q) :
  In (n, d, r) injectButtons -> (d <= cisScore (tripData s))%Z ->
  cisScore (tripData (handleInject t n s)) = (cisScore (tripData s) - d)%Z /\
  marketLoss (handleInject t n s) == marketLoss s - r * cargoValue (CROP_PROFILES (crop s)).
Proof.
  intros Hin Hd.
  assert (Hc : cisScore (tripData (handleInject t n s)) = (cisScore (tripData s) - d)%Z).
  { destruct Hin as [E|[E|[E|[]]]]; injection E as <- <- <-; simpl; lia. }
  split; [exact Hc|].
  unfold marketLoss. rewrite Hc, handleInject_crop.
  unfold Z.sub. rewrite inject_Z_plus, inject_Z_opp. unfold calcMarketLoss.
  destruct Hin as [E|[E|[E|[]]]]; injection E as <- <- <-; simpl inject_Z; field.
Qed.

Lemma inject_buttons_match_subtitles_witness :
  marketLoss (handleInject "14:00" "ac" initialState) ==
  marketLoss initialState - 0.10 * cargoValue (CROP_PROFILES (crop initialState)).
Proof.
  assert (Hin : In ("ac"%string, 10%Z, 0.10) injectButtons) by (right; left; reflexivity).
  assert (Hd : (10 <= cisScore (tripData initialState))%Z) by (vm_compute; discriminate).
  exact (proj2 (inject_buttons_match_subtitles "14:00" initialState _ _ _ Hin Hd)).
Defined.

(** ** The "Deduction" figures *)

(** In every reachable state the "Deduction" mini-stat and the "Total
    Deduction" row ([BASE_CIS - tripData.cisScore]) show the sum of the
    deductions of the log, capped at 88. *)
Theorem displayed_deduction (ops : list op) :
  let s := run initialState ops in
  (BASE_CIS - cisScore (tripData s))%Z = Z.min BASE_CIS (totalDeduction (incidents s)).
Proof.
  cbv zeta. destruct (run_scoreInv ops initialState initial_scoreInv) as [Hc Hf].
  pose proof (totalDeduction_nonneg _ Hf). rewrite Hc. unfold BASE_CIS. lia.
Qed.

(** ** The auto-play tick *)

Lemma clamp_15_45 (x : Q) : 15 <= jsmin 45 (jsmax 15 x) <= 45.
Proof.
  unfold jsmin, jsmax.
  destruct (Qle_bool 15 x) eqn:E1.
  - apply Qle_bool_iff in E1.
    destruct (Qle_bool 45 x) eqn:E2.
    + split; [discriminate | apply Qle_refl].
    + split; [exact E1|]. apply Qlt_le_weak, Qnot_le_lt.
      intros H. apply Qle_bool_iff in H. congruence.
  - simpl. split; [apply Qle_refl | discriminate].
Qed.

(** Whatever the random draws and the previous reading (also one set out of
    range through [handleTempChange]), the temperature after a tick lies in
    [15, 45]. *)
Theorem tick_temperature_in_range (t : string) (r1 r2 r3 : Q) (s : state) :
  15 <= currentTemp (tripData (autoTick t r1 r2 r3 s)) <= 45.
Proof.
  unfold autoTick. cbv zeta. simpl. apply clamp_15_45.
Qed.

(** A tick either records one road-shock incident or leaves the score, the
    log and the counter alone.  It records one exactly when a shock was
    drawn ([r2 < 0.3]) and exceeds the crop's [gforceCritical]; that
    incident has deduction 1 or 3, carries the new g-force and temperature
    of the snapshot, takes id [idRef + 1], and the score drops by it
    (floored at 0). *)
Theorem tick_incident_iff_critical_shock (t : string) (r1 r2 r3 : Q) (s : state) :
  let s' := autoTick t r1 r2 r3 s in
  let gc := gforceCritical (CROP_PROFILES (crop s)) in
  (r2 < 0.3 /\ gc < peakGForce (tripData s') /\
   exists e, incidents s' = incidents s ++ [Some e] /\ id e = (idRef s + 1)%Z /\
     idRef s' = (idRef s + 1)%Z /\ (deduction e = 1 \/ deduction e = 3)%Z /\
     gforce e = peakGForce (tripData s') /\ temp e = currentTemp (tripData s') /\
     cisScore (tripData s') = Z.max 0 (cisScore (tripData s) - deduction e)) \/
  ((0.3 <= r2 \/ peakGForce (tripData s') <= gc) /\
   incidents s' = incidents s /\ idRef s' = idRef s /\
   cisScore (tripData s') = cisScore (tripData s)).
Proof.
  cbv zeta. unfold autoTick. cbv zeta.
  set (gc := gforceCritical (CROP_PROFILES (crop s))).
  set (g := toFixed1 (0.5 + r3 * (gc * 1.8))).
  destruct (Qle_bool 0.3 r2) eqn:Hr; simpl negb; cbn iota.
  - apply Qle_bool_iff in Hr. right. simpl. repeat split. left; exact Hr.
  - assert (Hr' : r2 < 0.3).
    { apply Qnot_le_lt. intros H. apply Qle_bool_iff in H. congruence. }
    destruct (gtb g gc) eqn:Hg; simpl andb; cbn iota.
    + apply gtb_true in Hg. left. split; [exact Hr'|]. simpl. split; [exact Hg|].
      eexists. repeat split. destruct (gtb g (gc * 1.5)); [right|left]; reflexivity.
    + apply gtb_false in Hg. right. simpl. repeat split. right; exact Hg.
Qed.

(** ** History and log over a session *)

(** In every reachable state the history, drawn by the temperature chart,
    holds between 14 and 20 samples: it is never empty, so the chart's
    [Math.min]/[Math.max] over it are finite. *)
Theorem history_length_bounds (ops : list op) :
  (14 <= length (tempHistory (run initialState ops)) <= 20)%nat.
Proof.
  rewrite run_history, fold_pushSample.
  - rewrite lastn_length, length_app.
    change (length (tempHistory initialState)) with 14%nat. lia.
  - change (length (tempHistory initialState)) with 14%nat. lia.
Qed.

(** The incident log is append-only: from any state, the log after any
    sequence of operations is the log before followed by new entries, every
    new incident having an id above the counter the sequence started from. *)
Theorem log_append_only (s : state) (ops : list op) :
  exists rest, incidents (run s ops) = incidents s ++ rest /\
    (forall e, In (Some e) rest -> (idRef s < id e)%Z).
Proof. apply run_appends. Qed.

(** ** Clock strings ([nowTime]) *)

(** [String(n)] for a natural number: its decimal digits. *)
Fixpoint decAux (fuel n : nat) (acc : string) : string :=
  match fuel with
  | O => acc
  | S f =>
      let acc' := String (Ascii.ascii_of_nat (48 + n mod 10)) acc in
      if (n <? 10)%nat then acc' else decAux f (n / 10) acc'
  end.

Definition jsStringNat (n : nat) : string := decAux (S n) n "".

(** [str.padStart(2, "0")]. *)
Definition padStart2 (str : string) : string :=
  if (String.length str <? 2)%nat then append (String.concat "" (repeat "0"%string (2 - String.length str))) str
  else str.

Definition pad2 (n : nat) : string := padStart2 (jsStringNat n).

(** [nowTime()] for a clock reading [h:m:s]. *)
Definition nowTime (h m sec : nat) : string :=
  pad2 h ++ ":" ++ pad2 m ++ ":" ++ pad2 sec.

(** Reading back a two-digit field and an ["HH:MM"] string. *)
Definition digitVal (c : Ascii.ascii) : nat := Ascii.nat_of_ascii c - 48.

Definition parse2 (str : string) : nat :=
  match str with
  | String a (String b EmptyString) => 10 * digitVal a + digitVal b
  | _ => 0
  end.

Definition parseHHMM (str : string) : nat * nat :=
  (parse2 (substring 0 2 str), parse2 (substring 3 2 str)).

Lemma pad2_check :
  forallb (fun n => Nat.eqb (parse2 (pad2 n)) n && Nat.eqb (String.length (pad2 n)) 2)
          (seq 0 100) = true.
Proof. vm_compute. reflexivity. Qed.

Lemma pad2_two_digits (n : nat) :
  (n < 100)%nat ->
  exists c1 c2, pad2 n = String c1 (String c2 EmptyString) /\
                parse2 (String c1 (String c2 EmptyString)) = n.
Proof.
  intros Hn.
  pose proof pad2_check as H. rewrite forallb_forall in H.
  assert (Hin : In n (seq 0 100)) by (apply in_seq; lia).
  specialize (H n Hin). apply andb_true_iff in H as [H1 H2].
  apply Nat.eqb_eq in H1, H2.
  destruct (pad2 n) as [|c1 [|c2 [|c3 r]]] eqn:E; simpl in H2; try discriminate.
  exists c1, c2. split; [reflexivity | exact H1].
Qed.

(** The timestamps stored with samples and incidents,
    [nowTime().slice(0, 5)], are five characters ["HH:MM"] with both
    fields zero-padded, and read back to the hour and minute of the clock:
    readings of different minutes never share a timestamp.  The full
    [nowTime()] string has eight characters. *)
Theorem nowTime_slice_roundtrip (h m sec : nat) :
  (h < 24)%nat -> (m < 60)%nat -> (sec < 60)%nat ->
  String.length (nowTime h m sec) = 8%nat /\
  String.length (substring 0 5 (nowTime h m sec)) = 5%nat /\
  substring 0 5 (nowTime h m sec) = (pad2 h ++ ":" ++ pad2 m)%string /\
  parseHHMM (substring 0 5 (nowTime h m sec)) = (h, m).
Proof.
  intros Hh Hm Hs.
  destruct (pad2_two_digits h ltac:(lia)) as (a1 & a2 & Ea & Pa).
  destruct (pad2_two_digits m ltac:(lia)) as (b1 & b2 & Eb & Pb).
  destruct (pad2_two_digits sec ltac:(lia)) as (c1 & c2 & Ec & Pc).
  unfold nowTime. rewrite Ea, Eb, Ec.
  split; [reflexivity|]. split; [reflexivity|]. split; [reflexivity|].
  unfold parseHHMM. simpl. rewrite <- Pa, <- Pb. reflexivity.
Qed.

Lemma nowTime_slice_roundtrip_witness :
  parseHHMM (substring 0 5 (nowTime 9 5 30)) = (9, 5)%nat.
Proof.
  exact (proj2 (proj2 (proj2 (nowTime_slice_roundtrip 9 5 30 ltac:(lia) ltac:(lia) ltac:(lia))))).
Defined.

(** ** The "Incidents" count *)

(** [incidents.filter(i => i.deduction > 0).length], the "Incidents"
    mini-stat and the number of bars of the degradation panel.  Reading
    [i.deduction] on an [undefined] entry throws a TypeError: [None]. *)
Fixpoint countPositive (l : list (option Incident)) : option nat :=
  match l with
  | [] => Some 0%nat
  | Some e :: l' =>
      option_map (fun n => if (0 <? deduction e)%Z then S n else n) (countPositive l')
  | None :: _ => None
  end.

Lemma countPositive_app (l1 l2 : list (option Incident)) :
  countPositive (l1 ++ l2) =
  match countPositive l1, countPositive l2 with
  | Some a, Some b => Some (a + b)%nat
  | _, _ => None
  end.
Proof.
  induction l1 as [|[e|] l1 IH]; simpl.
  - destruct (countPositive l2); reflexivity.
  - rewrite IH. destruct (countPositive l1), (countPositive l2); simpl; try reflexivity.
    destruct (0 <? deduction e)%Z; reflexivity.
  - reflexivity.
Qed.

Lemma countPositive_fixed (l : list (option Incident)) :
  Forall codeDed l ->
  countPositive l = if forallb isIncident l then Some (length l) else None.
Proof.
  induction 1 as [|[e|] l H _ IH]; simpl; [reflexivity| |reflexivity].
  rewrite IH. simpl in H.
  assert (Hp : (0 <? deduction e)%Z = true)
    by (apply Z.ltb_lt; destruct H as [H|[H|[H|[H|[H|[]]]]]]; rewrite <- H; lia).
  rewrite Hp. destruct (forallb isIncident l); reflexivity.
Qed.

(** In every reachable state the log is the seeds followed by the entries
    appended since.  When every injection used one of the three table names
    (as the drawer's buttons do), the "Incidents" count is the 6 seeds with
    a deduction plus one per appended incident; after an injection with any
    other name the count throws instead. *)
Theorem incidents_count (ops : list op) :
  exists rest, incidents (run initialState ops) = map Some INITIAL_INCIDENTS ++ rest /\
    countPositive (incidents (run initialState ops)) =
      (if forallb knownInject ops then Some (6 + length rest)%nat else None).
Proof.
  destruct (run_appends_fixed ops initialState) as (rest & E & F & B).
  exists rest. split; [exact E|].
  rewrite E, countPositive_app, (countPositive_fixed rest F), <- B.
  change (countPositive (map Some INITIAL_INCIDENTS)) with (Some 6%nat).
  destruct (forallb isIncident rest); reflexivity.
Qed.
